(** * Scoped measurements of python-otel-guidelines

    A shallow embedding of [src/batch-otel-metrics.py] and
    [src/batch-otel-traces.py]: the two context managers [HistrogramTimer]
    and [SpanTime], the module-level exporters and instruments they use, and
    the part of the Python runtime and of the OpenTelemetry SDK their
    behaviour depends on.

    Python floats are IEEE 754 binary64 numbers and are modelled by Rocq's
    primitive floats; Python exceptions are an outcome of every computation;
    the telemetry calls a program makes are appended to a log kept in the
    world state, and span objects live in a heap of that state. *)

From Stdlib Require Import ZArith List String Floats Lia.
Import ListNotations.
Local Open Scope string_scope.
Local Open Scope list_scope.

Set Implicit Arguments.
Set Warnings "-inexact-float".

(* ===================================================================== *)
(** * The Python runtime *)
(* ===================================================================== *)

Module Py.

(** The builtin exception classes that matter here.  [except Exception]
    catches [Exception] and its subclasses; [KeyboardInterrupt],
    [SystemExit] and [asyncio.CancelledError] derive from [BaseException]
    only. *)
Inductive ExcClass : Type :=
| Exception
| AttributeError
| ValueError
| KeyboardInterrupt
| SystemExit
| CancelledError.

Definition issubclass_Exception (c : ExcClass) : bool :=
  match c with
  | Exception | AttributeError | ValueError => true
  | KeyboardInterrupt | SystemExit | CancelledError => false
  end.

Record Exc : Type := mkExc { exc_class : ExcClass; exc_message : string }.

(** What a statement or a call ends in. *)
Inductive Outcome (A : Type) : Type :=
| Returned (a : A)
| Raised (e : Exc).
Arguments Returned {A} a.
Arguments Raised {A} e.

(** The values [__exit__] may hand back to the [with] statement. *)
Inductive Value : Type :=
| None_
| Bool_ (b : bool).

Definition truthy (v : Value) : bool :=
  match v with
  | None_ => false
  | Bool_ b => b
  end.

End Py.

(* ===================================================================== *)
(** * The OpenTelemetry and logging boundary *)
(* ===================================================================== *)

Module StatusCode.
Inductive t : Type := UNSET | OK | ERROR.
End StatusCode.

Module logging.
Inductive Level : Type := DEBUG | INFO | WARNING | ERROR | CRITICAL.
End logging.

(** Attribute values and attribute dictionaries. *)
Inductive AttrValue : Type :=
| AStr (s : string)
| AFloat (f : float)
| AInt (z : Z)
| ABool (b : bool).

Definition Attributes : Type := list (string * AttrValue).

(** [d[k] = v] on a dict kept in insertion order. *)
Fixpoint dict_set (d : Attributes) (k : string) (v : AttrValue) : Attributes :=
  match d with
  | [] => [(k, v)]
  | (k', v') :: d' =>
      if String.eqb k' k then (k, v) :: d' else (k', v') :: dict_set d' k v
  end.

Fixpoint dict_get (d : Attributes) (k : string) : option AttrValue :=
  match d with
  | [] => None
  | (k', v') :: d' => if String.eqb k' k then Some v' else dict_get d' k
  end.

(** Instruments, as returned by [meter.create_histogram] and
    [meter.create_counter]. *)
Inductive InstrumentKind : Type := Histogram | Counter.

Record Instrument : Type := mkInstrument {
  inst_kind : InstrumentKind;
  inst_name : string;
  inst_unit : string;
  inst_description : string
}.

Definition create_histogram (name unit description : string) : Instrument :=
  mkInstrument Histogram name unit description.

Definition create_counter (name unit description : string) : Instrument :=
  mkInstrument Counter name unit description.

(** A span object.  [span_events] holds what [record_exception] attached. *)
Record Span : Type := mkSpan {
  span_name : string;
  span_start_time : Z;
  span_end_time : option Z;
  span_status : StatusCode.t;
  span_attributes : Attributes;
  span_events : list Py.Exc
}.

(** The calls made on instruments and on the root logger. *)
Inductive Call : Type :=
| HistogramRecord (h : Instrument) (amount : float) (attributes : Attributes)
| CounterAdd (c : Instrument) (amount : Z) (attributes : Attributes)
| LogRecord (level : logging.Level) (msg : string).

(** The world a program runs in: the two clocks, the random generator (the
    successive results of [random.random()] and how many were drawn), the
    span heap in creation order and the log of calls, oldest first.  The
    clocks move while the instrumented work runs; the calls of a release
    read them where the work left them. *)
Record World : Type := mkWorld {
  perf_counter_now : float;
  time_ns_now : Z;
  random_source : nat -> float;
  random_drawn : nat;
  spans : list Span;
  calls : list Call
}.

(** An endpoint as it is configured: its text, and the scheme and the
    network location [urlparse] reads in it (the scheme in lower case; both
    empty when the text has none). *)
Record Endpoint : Type := mkEndpoint {
  ep_text : string;
  ep_scheme : string;
  ep_netloc : string
}.

(** The configuration a program runs under: the endpoint its environment
    resolves to for the exporter ([http://localhost:4317] when none is
    set), and the security mode it asks for. *)
Record Config : Type := mkConfig {
  cfg_endpoint : Endpoint;
  cfg_insecure : bool
}.

(** An exporter: the target of its channel, and whether the channel is
    plaintext ([insecure_channel]) or TLS ([secure_channel]). *)
Record OTLPExporter : Type := mkExporter {
  exporter_endpoint : string;
  exporter_insecure : bool
}.

(** [OTLPMetricExporter(insecure=b)] and [OTLPSpanExporter(insecure=b)],
    called without an endpoint, as both programs do.  The endpoint is the
    configured one, cut down to its network location when it has one.  The
    [insecure] argument that is passed stands, and the configured mode is
    not looked at, except that an endpoint of scheme [https] makes the
    exporter secure whatever was passed. *)
Definition OTLPExporter_init (cfg : Config) (insecure : bool) : OTLPExporter :=
  let ep := cfg_endpoint cfg in
  {| exporter_endpoint :=
       if String.eqb (ep_netloc ep) "" then ep_text ep else ep_netloc ep;
     exporter_insecure :=
       if String.eqb (ep_scheme ep) "https" then false else insecure |}.

Definition OTLPMetricExporter := OTLPExporter_init.
Definition OTLPSpanExporter := OTLPExporter_init.

(* ===================================================================== *)
(** * Computations: state and exceptions *)
(* ===================================================================== *)

Definition M (A : Type) : Type := World -> Py.Outcome A * World.

Definition ret {A} (a : A) : M A := fun w => (Py.Returned a, w).

Definition bind {A B} (m : M A) (k : A -> M B) : M B :=
  fun w =>
    match m w with
    | (Py.Returned a, w') => k a w'
    | (Py.Raised e, w') => (Py.Raised e, w')
    end.

Definition raise {A} (e : Py.Exc) : M A := fun w => (Py.Raised e, w).

Declare Scope py_scope.
Delimit Scope py_scope with py.
Notation "x <- m ;; k" := (bind m (fun x => k))
  (at level 61, m at next level, right associativity) : py_scope.
Notation "m ;; k" := (bind m (fun _ => k))
  (at level 61, right associativity) : py_scope.
Local Open Scope py_scope.

(** [try: body / except Exception as e: handler e]. *)
Definition try_except_Exception {A} (body : M A) (handler : Py.Exc -> M A) : M A :=
  fun w =>
    match body w with
    | (Py.Returned a, w') => (Py.Returned a, w')
    | (Py.Raised e, w') =>
        if Py.issubclass_Exception (Py.exc_class e)
        then handler e w'
        else (Py.Raised e, w')
    end.

(** The [with] statement (PEP 343): [__enter__] runs, then the body; the
    release [__exit__] runs on both exits of the body, with the exception
    when there is one, and a falsy result lets that exception go on. *)
Definition with_stmt {T} (enter : M T)
    (exit : T -> option Py.Exc -> M Py.Value) (body : T -> M unit) : M unit :=
  fun w =>
    match enter w with
    | (Py.Raised e, w1) => (Py.Raised e, w1)
    | (Py.Returned t, w1) =>
        match body t w1 with
        | (Py.Returned _, w2) =>
            match exit t None w2 with
            | (Py.Returned _, w3) => (Py.Returned tt, w3)
            | (Py.Raised e', w3) => (Py.Raised e', w3)
            end
        | (Py.Raised e, w2) =>
            match exit t (Some e) w2 with
            | (Py.Returned v, w3) =>
                if Py.truthy v then (Py.Returned tt, w3) else (Py.Raised e, w3)
            | (Py.Raised e', w3) => (Py.Raised e', w3)
            end
        end
    end.

(** ** Primitive effects *)

Definition emit (c : Call) : M unit :=
  fun w => (Py.Returned tt,
            mkWorld (perf_counter_now w) (time_ns_now w) (random_source w)
                    (random_drawn w) (spans w) (calls w ++ [c])).

Definition set_spans (w : World) (l : list Span) : World :=
  mkWorld (perf_counter_now w) (time_ns_now w) (random_source w)
          (random_drawn w) l (calls w).

(** [time.perf_counter()] *)
Definition perf_counter : M float :=
  fun w => (Py.Returned (perf_counter_now w), w).

(** [random.random()] *)
Definition random_random : M float :=
  fun w => (Py.Returned (random_source w (random_drawn w)),
            mkWorld (perf_counter_now w) (time_ns_now w) (random_source w)
                    (S (random_drawn w)) (spans w) (calls w)).

(** [histogram.record(amount, attributes)] *)
Definition record (h : Instrument) (amount : float) (a : Attributes) : M unit :=
  emit (HistogramRecord h amount a).

(** [counter.add(amount, attributes)] *)
Definition add (c : Instrument) (amount : Z) (a : Attributes) : M unit :=
  emit (CounterAdd c amount a).

(** [logging.error(msg)] *)
Definition logging_error (msg : string) : M unit :=
  emit (LogRecord logging.ERROR msg).

(** ** Spans *)

Definition SpanRef : Type := nat.

Fixpoint update_nth (n : nat) (f : Span -> Span) (l : list Span) : list Span :=
  match l, n with
  | [], _ => []
  | s :: l', O => f s :: l'
  | s :: l', S n' => s :: update_nth n' f l'
  end.

Definition on_span (r : SpanRef) (f : Span -> Span) : M unit :=
  fun w => (Py.Returned tt, set_spans w (update_nth r f (spans w))).

(** [span.set_attribute(key, value)] *)
Definition set_attribute (r : SpanRef) (k : string) (v : AttrValue) : M unit :=
  on_span r (fun s =>
    mkSpan (span_name s) (span_start_time s) (span_end_time s) (span_status s)
           (dict_set (span_attributes s) k v) (span_events s)).

(** [span.set_status(trace.Status(code))] *)
Definition set_status (r : SpanRef) (code : StatusCode.t) : M unit :=
  on_span r (fun s =>
    mkSpan (span_name s) (span_start_time s) (span_end_time s) code
           (span_attributes s) (span_events s)).

(** [span.record_exception(e)] *)
Definition record_exception (r : SpanRef) (e : Py.Exc) : M unit :=
  on_span r (fun s =>
    mkSpan (span_name s) (span_start_time s) (span_end_time s) (span_status s)
           (span_attributes s) (span_events s ++ [e])).

(** [span.end()]: the end time is read from the clock. *)
Definition span_end (r : SpanRef) : M unit :=
  fun w => on_span r (fun s =>
    mkSpan (span_name s) (span_start_time s) (Some (time_ns_now w))
           (span_status s) (span_attributes s) (span_events s)) w.

(** [with tracer.start_as_current_span(name) as span: body]: the span is
    created, and its start time read from the clock, when the statement is
    entered; it is ended when the statement is left.  An exception that
    leaves the body is recorded on the span with status [ERROR] (the SDK's
    defaults) and goes on. *)
Definition start_as_current_span {A} (name : string) (body : SpanRef -> M A) : M A :=
  fun w =>
    let r := List.length (spans w) in
    let s := mkSpan name (time_ns_now w) None StatusCode.UNSET [] [] in
    match body r (set_spans w (spans w ++ [s])) with
    | (Py.Returned a, w') => (span_end r ;; ret a) w'
    | (Py.Raised e, w') =>
        (record_exception r e ;; set_status r StatusCode.ERROR ;;
         span_end r ;; raise e) w'
    end.

(** [attributes or {}]: a falsy argument ([None] or an empty dict) gives a
    fresh empty dict. *)
Definition or_empty (attributes : option Attributes) : Attributes :=
  match attributes with
  | Some (kv :: d) => kv :: d
  | Some [] | None => []
  end.

(** Reading [self.start_time], an attribute that exists once [__enter__]
    has run. *)
Definition getattr_start_time (start_time : option float) : M float :=
  match start_time with
  | Some t => ret t
  | None => raise (Py.mkExc Py.AttributeError "start_time")
  end.

(* ===================================================================== *)
(** * batch-otel-metrics.py *)
(* ===================================================================== *)

Module Metrics.

(** [exporter = OTLPMetricExporter(insecure=True)] *)
Definition exporter (cfg : Config) : OTLPExporter :=
  OTLPMetricExporter cfg true.

Definition duration_histogram : Instrument :=
  create_histogram "duration" "ms" "Duration of process".

Definition error_counter : Instrument :=
  create_counter "error_count" "1" "Number of errors".

(** The fields of a [HistrogramTimer] instance. *)
Record HistrogramTimer : Type := mkHistrogramTimer {
  self_duration_histogram : Instrument;
  self_error_counter : Instrument;
  self_attributes : Attributes;
  self_start_time : option float
}.

Definition __init__ (duration_histogram error_counter : Instrument)
    (attributes : option Attributes) : HistrogramTimer :=
  {| self_duration_histogram := duration_histogram;
     self_error_counter := error_counter;
     self_attributes := or_empty attributes;
     self_start_time := None |}.

Definition __enter__ (self : HistrogramTimer) : M HistrogramTimer :=
  t <- perf_counter ;;
  ret {| self_duration_histogram := self_duration_histogram self;
         self_error_counter := self_error_counter self;
         self_attributes := self_attributes self;
         self_start_time := Some t |}.

(** The release.  The histogram that receives the record is the module's
    [duration_histogram], as in the source. *)
Definition __exit__ (self : HistrogramTimer) (exc : option Py.Exc) : M Py.Value :=
  now <- perf_counter ;;
  start <- getattr_start_time (self_start_time self) ;;
  let duration_ms := ((now - start) * 1000)%float in
  try_except_Exception
    (r <- random_random ;;
     if (r <? 0.05)%float
     then raise (Py.mkExc Py.Exception "simulated error")
     else ret tt)
    (fun e =>
       add (self_error_counter self) 1 (self_attributes self) ;;
       logging_error "transaction failed") ;;
  record duration_histogram duration_ms (self_attributes self) ;;
  ret Py.None_.

End Metrics.

(* ===================================================================== *)
(** * batch-otel-traces.py *)
(* ===================================================================== *)

Module Traces.

(** [exporter = OTLPSpanExporter(insecure=True)] *)
Definition exporter (cfg : Config) : OTLPExporter :=
  OTLPSpanExporter cfg true.

(** The fields of a [SpanTime] instance. *)
Record SpanTime : Type := mkSpanTime {
  self_name : string;
  self_attributes : Attributes;
  self_start_time : option float
}.

Definition __init__ (name : string) (attributes : option Attributes) : SpanTime :=
  {| self_name := name;
     self_attributes := or_empty attributes;
     self_start_time := None |}.

Definition __enter__ (self : SpanTime) : M SpanTime :=
  t <- perf_counter ;;
  ret {| self_name := self_name self;
         self_attributes := self_attributes self;
         self_start_time := Some t |}.

Definition __exit__ (self : SpanTime) (exc : option Py.Exc) : M Py.Value :=
  now <- perf_counter ;;
  start <- getattr_start_time (self_start_time self) ;;
  let duration_ms := ((now - start) * 1000)%float in
  start_as_current_span (self_name self) (fun span =>
    try_except_Exception
      (r <- random_random ;;
       (if (r <? 0.05)%float
        then raise (Py.mkExc Py.Exception "simulated error")
        else ret tt) ;;
       set_attribute span "duration" (AFloat duration_ms) ;;
       set_status span StatusCode.OK)
      (fun e =>
         record_exception span e ;;
         set_status span StatusCode.ERROR ;;
         logging_error "failed transaction")) ;;
  ret Py.None_.

End Traces.

(* ===================================================================== *)
(** * Scoped measurements *)
(* ===================================================================== *)

(** A scoped measurement is a timer of either program. *)
Inductive ScopedMeasurement : Type :=
| Metric (t : Metrics.HistrogramTimer)
| Trace (t : Traces.SpanTime).

(** Acquisition is [__enter__], release is [__exit__]. *)
Definition acquire (m : ScopedMeasurement) : M ScopedMeasurement :=
  match m with
  | Metric t => t' <- Metrics.__enter__ t ;; ret (Metric t')
  | Trace t => t' <- Traces.__enter__ t ;; ret (Trace t')
  end.

Definition release (m : ScopedMeasurement) (exc : option Py.Exc) : M Py.Value :=
  match m with
  | Metric t => Metrics.__exit__ t exc
  | Trace t => Traces.__exit__ t exc
  end.

(** [with m: body], as in the two [__main__] loops. *)
Definition scoped (m : ScopedMeasurement) (body : M unit) : M unit :=
  with_stmt (acquire m) release (fun _ => body).

Definition start_time_of (m : ScopedMeasurement) : option float :=
  match m with
  | Metric t => Metrics.self_start_time t
  | Trace t => Traces.self_start_time t
  end.

(** The measurement once [__enter__] has stored the reading [t0]. *)
Definition started (m : ScopedMeasurement) (t0 : float) : ScopedMeasurement :=
  match m with
  | Metric t =>
      Metric (Metrics.mkHistrogramTimer (Metrics.self_duration_histogram t)
                (Metrics.self_error_counter t) (Metrics.self_attributes t) (Some t0))
  | Trace t =>
      Trace (Traces.mkSpanTime (Traces.self_name t) (Traces.self_attributes t) (Some t0))
  end.

(* ===================================================================== *)
(** * Observations on a world *)
(* ===================================================================== *)

(** The value the next [random.random()] returns, and the test the release
    makes on it. *)
Definition sample (w : World) : float := random_source w (random_drawn w).

Definition simulated_error (w : World) : bool := (sample w <? 0.05)%float.

Definition is_histogram_record (c : Call) : bool :=
  match c with HistogramRecord _ _ _ => true | _ => false end.

Definition is_counter_add (c : Call) : bool :=
  match c with CounterAdd _ _ _ => true | _ => false end.

Definition is_log (c : Call) : bool :=
  match c with LogRecord _ _ => true | _ => false end.

Definition count (p : Call -> bool) (l : list Call) : nat :=
  List.length (filter p l).

(** The calls and the spans a computation added to the world it started
    from: what is left of the final log and heap after the initial ones. *)
Definition new_calls (before after : World) : list Call :=
  skipn (List.length (calls before)) (calls after).

Definition new_spans (before after : World) : list Span :=
  skipn (List.length (spans before)) (spans after).

Definition has_duration (s : Span) : bool :=
  match dict_get (span_attributes s) "duration" with
  | Some _ => true
  | None => false
  end.

(** Duration records: records on a histogram, and spans that carry the
    [duration] attribute.  Error-count increments: calls of [add]. *)
Definition duration_records (before after : World) : nat :=
  count is_histogram_record (new_calls before after)
  + List.length (filter has_duration (new_spans before after)).

Definition error_increments (before after : World) : nat :=
  count is_counter_add (new_calls before after).

(** The outcome a release left behind: in metric mode an increment of the
    error counter or none, in span mode the status of the span. *)
Definition observed_outcome (m : ScopedMeasurement) (before after : World)
  : StatusCode.t :=
  match m with
  | Metric _ =>
      if Nat.eqb (error_increments before after) 0
      then StatusCode.OK else StatusCode.ERROR
  | Trace _ =>
      match new_spans before after with
      | [s] => span_status s
      | _ => StatusCode.UNSET
      end
  end.

(** The passing of time while the instrumented work runs, as
    [time.sleep] in the sample programs. *)
Definition elapse (seconds : float) (ns : Z) : M unit :=
  fun w => (Py.Returned tt,
            mkWorld (perf_counter_now w + seconds)%float (time_ns_now w + ns)%Z
                    (random_source w) (random_drawn w) (spans w) (calls w)).

(** ** The effect of a release, in closed form *)

(** The calls of a metric-mode release, and the span and the calls of a
    span-mode release. *)
Definition metric_release_calls (t : Metrics.HistrogramTimer) (t0 : float)
    (w : World) : list Call :=
  (if simulated_error w
   then [CounterAdd (Metrics.self_error_counter t) 1 (Metrics.self_attributes t);
         LogRecord logging.ERROR "transaction failed"]
   else [])
  ++ [HistogramRecord Metrics.duration_histogram
        ((perf_counter_now w - t0) * 1000)%float (Metrics.self_attributes t)].

Definition trace_release_span (t : Traces.SpanTime) (t0 : float) (w : World) : Span :=
  if simulated_error w
  then mkSpan (Traces.self_name t) (time_ns_now w) (Some (time_ns_now w))
         StatusCode.ERROR [] [Py.mkExc Py.Exception "simulated error"]
  else mkSpan (Traces.self_name t) (time_ns_now w) (Some (time_ns_now w))
         StatusCode.OK
         [("duration", AFloat ((perf_counter_now w - t0) * 1000)%float)] [].

Definition trace_release_calls (w : World) : list Call :=
  if simulated_error w then [LogRecord logging.ERROR "failed transaction"] else [].

(** ** Concrete inputs *)

(** A world whose generator always returns [r]. *)
Definition world0 (r : float) : World :=
  {| perf_counter_now := 10; time_ns_now := 1000;
     random_source := fun _ => r; random_drawn := 0;
     spans := []; calls := [] |}.

(** The timers of the two [__main__] loops. *)
Definition main_timer : ScopedMeasurement :=
  Metric (Metrics.__init__ Metrics.duration_histogram Metrics.error_counter
            (Some [("op", AStr "data-process")])).

Definition main_span : ScopedMeasurement :=
  Trace (Traces.__init__ "data-process" None).

(** A histogram of the caller's own, other than the module's. *)
Definition latency_histogram : Instrument :=
  create_histogram "latency" "ms" "Latency of requests".

Definition latency_timer : ScopedMeasurement :=
  Metric (Metrics.__init__ latency_histogram Metrics.error_counter
            (Some [("op", AStr "data-process")])).

(** Work that sleeps, and work that is interrupted while it sleeps. *)
Definition sleeping_work : M unit := elapse 1.5 500.

Definition interrupted_work : M unit :=
  elapse 1.5 500 ;; raise (Py.mkExc Py.KeyboardInterrupt "").

(** A configuration that asks for TLS on a plain [http] endpoint, and one
    that asks for plaintext on an [https] endpoint. *)
Definition tls_config : Config :=
  {| cfg_endpoint :=
       mkEndpoint "http://collector.example:4317" "http" "collector.example:4317";
     cfg_insecure := false |}.

Definition plaintext_https_config : Config :=
  {| cfg_endpoint :=
       mkEndpoint "https://collector.example:4317" "https" "collector.example:4317";
     cfg_insecure := true |}.

(** ** The claims of the specification that the code does not meet, as the
    specification words them *)

(** Every release produces one duration record and, on the error path, one
    error-count increment. *)
Definition one_duration_record_one_error_increment
    (m : ScopedMeasurement) (exc : option Py.Exc) (w : World) : Prop :=
  let w' := snd (release m exc w) in
  duration_records w w' = 1 /\
  (simulated_error w = true -> error_increments w w' = 1).

(** A release that is handed an exception classifies the outcome as error. *)
Definition raised_exit_is_error
    (m : ScopedMeasurement) (e : Py.Exc) (w : World) : Prop :=
  observed_outcome m w (snd (release m (Some e) w)) = StatusCode.ERROR.

(** The span of a scope starts when the scope is acquired. *)
Definition span_starts_at_acquisition
    (m : ScopedMeasurement) (body : M unit) (w : World) : Prop :=
  forall s, In s (new_spans w (snd (scoped m body w))) ->
            span_start_time s = time_ns_now w.

(** The exporter's security mode is the configured one. *)
Definition security_from_configuration (exporter : Config -> OTLPExporter) : Prop :=
  forall cfg, exporter_insecure (exporter cfg) = cfg_insecure cfg.

(* ===================================================================== *)
(** * The [__main__] loops *)
(* ===================================================================== *)

(** [for i in range(n): body i] *)
Fixpoint for_range_from (i n : nat) (body : nat -> M unit) : M unit :=
  match n with
  | O => ret tt
  | S n' => body i ;; for_range_from (S i) n' body
  end.

Definition for_range (n : nat) (body : nat -> M unit) : M unit :=
  for_range_from 0 n body.

(** [random.uniform(a, b)], which is [a + (b - a) * random()]. *)
Definition random_uniform (a b : float) : M float :=
  r <- random_random ;; ret (a + (b - a) * r)%float.

(** The work of both loops, [time.sleep(random.uniform(100, 2000) / 1000)],
    over the library's [time.sleep]. *)
Definition main_work (time_sleep : float -> M unit) : M unit :=
  secs <- random_uniform 100 2000 ;; time_sleep (secs / 1000)%float.

(** [for i in range(n): with m: work] *)
Definition scopes (n : nat) (m : ScopedMeasurement) (work : M unit) : M unit :=
  for_range n (fun _ => scoped m work).

(** The loops of the two programs. *)
Definition metrics_main (time_sleep : float -> M unit) : M unit :=
  scopes 50 main_timer (main_work time_sleep).

Definition traces_main (time_sleep : float -> M unit) : M unit :=
  scopes 50 main_span (main_work time_sleep).

(** What is assumed of [time.sleep]: on a length that is neither negative
    nor infinite nor a NaN it returns, and it touches neither the telemetry
    nor the random generator. *)
Definition sleep_ok (secs : float) : bool :=
  andb (0 <=? secs)%float (secs <? infinity)%float.

Definition sleeps (time_sleep : float -> M unit) : Prop :=
  forall secs w, sleep_ok secs = true ->
    exists w', time_sleep secs w = (Py.Returned tt, w') /\
               calls w' = calls w /\ spans w' = spans w /\
               random_source w' = random_source w /\
               random_drawn w' = random_drawn w.

(** The length the work sleeps for when the generator returns [r], and the
    worlds whose generator only gives lengths [time.sleep] accepts. *)
Definition sleep_length (r : float) : float :=
  ((100 + (2000 - 100) * r) / 1000)%float.

Definition valid_lengths (w : World) : Prop :=
  forall i, sleep_ok (sleep_length (random_source w i)) = true.

(** The releases of [n] scopes that find a sample below 0.05, when the
    generator stands at [i] before the first scope: each scope draws one
    sample for its work, then one for its release. *)
Fixpoint injected_errors (src : nat -> float) (i n : nat) : nat :=
  match n with
  | O => O
  | S n' =>
      (if (src (S i) <? 0.05)%float then 1 else 0)
      + injected_errors src (S (S i)) n'
  end.

(** A sleep that lasts what it was asked for. *)
Definition ideal_sleep (secs : float) : M unit := elapse secs 1000000.

(** The calls [main_timer] may make, and the spans [main_span] may end. *)
Definition main_timer_call (c : Call) : Prop :=
  match c with
  | HistogramRecord h _ a =>
      h = Metrics.duration_histogram /\ a = [("op", AStr "data-process")]
  | CounterAdd c n a =>
      c = Metrics.error_counter /\ n = 1%Z /\ a = [("op", AStr "data-process")]
  | LogRecord l msg => l = logging.ERROR /\ msg = "transaction failed"
  end.

Definition main_span_ended (s : Span) : Prop :=
  span_name s = "data-process" /\
  span_end_time s <> None /\
  match span_status s with
  | StatusCode.OK => has_duration s = true /\ span_events s = []
  | StatusCode.ERROR =>
      span_attributes s = [] /\
      span_events s = [Py.mkExc Py.Exception "simulated error"]
  | StatusCode.UNSET => False
  end.

Definition is_error_span (s : Span) : bool :=
  match span_status s with
  | StatusCode.ERROR => true
  | _ => false
  end.

(* ===================================================================== *)
(** * What a release does *)
(* ===================================================================== *)

Lemma update_nth_app_last (f : Span -> Span) (l : list Span) (s : Span) :
  update_nth (List.length l) f (l ++ [s]) = l ++ [f s].
Proof.
  induction l as [|x l IH]; simpl; [reflexivity|].
  now rewrite IH.
Qed.

Lemma skipn_app_exact {A} (l k : list A) : skipn (List.length l) (l ++ k) = k.
Proof. induction l; simpl; auto. Qed.

(** Comparison of binary64 numbers: [y <= x] excludes [x < y]. *)
Lemma SFleb_not_ltb (x y : SpecFloat.spec_float) :
  SpecFloat.SFleb y x = true -> SpecFloat.SFltb x y = false.
Proof.
  unfold SpecFloat.SFleb, SpecFloat.SFltb.
  destruct x as [sx|sx| |sx mx ex], y as [sy|sy| |sy my ey]; simpl;
    try reflexivity; try discriminate;
    try (destruct sx; simpl; (reflexivity || discriminate));
    try (destruct sy; simpl; (reflexivity || discriminate)).
  - destruct sx, sy; simpl; reflexivity || discriminate.
  - change (Pos.compare_cont Eq my mx) with (my ?= mx)%positive.
    change (Pos.compare_cont Eq mx my) with (mx ?= my)%positive.
    rewrite (Z.compare_antisym ey ex), (Pos.compare_antisym my mx).
    destruct sx, sy; simpl; try reflexivity; try discriminate;
      destruct (ey ?= ex)%Z; simpl; try reflexivity; try discriminate;
      destruct (my ?= mx)%positive; simpl; reflexivity || discriminate.
Qed.

Lemma leb_not_ltb (x y : float) :
  (y <=? x)%float = true -> (x <? y)%float = false.
Proof. rewrite leb_spec, ltb_spec. apply SFleb_not_ltb. Qed.

Lemma metrics_exit_eq t exc w t0 :
  Metrics.self_start_time t = Some t0 ->
  Metrics.__exit__ t exc w =
  (Py.Returned Py.None_,
   mkWorld (perf_counter_now w) (time_ns_now w) (random_source w)
     (S (random_drawn w)) (spans w) (calls w ++ metric_release_calls t t0 w)).
Proof.
  intros H.
  unfold Metrics.__exit__, bind, perf_counter, getattr_start_time.
  rewrite H.
  unfold metric_release_calls, simulated_error, sample,
    ret, try_except_Exception, bind, random_random.
  destruct (random_source w (random_drawn w) <? 0.05)%float; simpl.
  - unfold record, add, logging_error, emit, bind; simpl.
    now rewrite <- !app_assoc.
  - reflexivity.
Qed.

Lemma traces_exit_eq t exc w t0 :
  Traces.self_start_time t = Some t0 ->
  Traces.__exit__ t exc w =
  (Py.Returned Py.None_,
   mkWorld (perf_counter_now w) (time_ns_now w) (random_source w)
     (S (random_drawn w)) (spans w ++ [trace_release_span t t0 w])
     (calls w ++ trace_release_calls w)).
Proof.
  intros H.
  unfold Traces.__exit__, bind, perf_counter, getattr_start_time.
  rewrite H.
  unfold trace_release_span, trace_release_calls, simulated_error, sample,
    ret, start_as_current_span, try_except_Exception, bind, random_random.
  simpl.
  destruct (random_source w (random_drawn w) <? 0.05)%float; simpl.
  - unfold record_exception, set_status, logging_error, emit, span_end,
      on_span, set_spans, bind, ret; simpl.
    now rewrite !update_nth_app_last.
  - unfold set_attribute, set_status, span_end, on_span, set_spans, bind, ret;
      simpl.
    now rewrite !update_nth_app_last, app_nil_r.
Qed.

(** The release of either kind returns [None]; what it adds to the world is
    read off the two lemmas above. *)
Lemma release_returns m exc w t0 :
  start_time_of m = Some t0 -> fst (release m exc w) = Py.Returned Py.None_.
Proof.
  destruct m as [t|t]; simpl; intros H.
  - now rewrite (metrics_exit_eq t exc w H).
  - now rewrite (traces_exit_eq t exc w H).
Qed.

Lemma metric_new_calls t exc w t0 :
  Metrics.self_start_time t = Some t0 ->
  new_calls w (snd (Metrics.__exit__ t exc w)) = metric_release_calls t t0 w /\
  new_spans w (snd (Metrics.__exit__ t exc w)) = [].
Proof.
  intros H. rewrite (metrics_exit_eq t exc w H).
  unfold new_calls, new_spans; simpl. split.
  - apply skipn_app_exact.
  - apply skipn_all.
Qed.

Lemma trace_new_calls t exc w t0 :
  Traces.self_start_time t = Some t0 ->
  new_calls w (snd (Traces.__exit__ t exc w)) = trace_release_calls w /\
  new_spans w (snd (Traces.__exit__ t exc w)) = [trace_release_span t t0 w].
Proof.
  intros H. rewrite (traces_exit_eq t exc w H).
  unfold new_calls, new_spans; simpl. split; apply skipn_app_exact.
Qed.

(** Acquisition stores the clock reading and leaves the world as it is. *)
Lemma acquire_eq m w :
  acquire m w = (Py.Returned (started m (perf_counter_now w)), w).
Proof. destruct m; reflexivity. Qed.

Lemma start_time_of_started m t0 : start_time_of (started m t0) = Some t0.
Proof. destruct m; reflexivity. Qed.

(** A scope runs the body in the world of acquisition, then the release in
    the world the body left; the exception of the body goes on. *)
Lemma scoped_eq m body w :
  scoped m body w =
  match body w with
  | (Py.Returned _, w2) =>
      (Py.Returned tt, snd (release (started m (perf_counter_now w)) None w2))
  | (Py.Raised e, w2) =>
      (Py.Raised e, snd (release (started m (perf_counter_now w)) (Some e) w2))
  end.
Proof.
  unfold scoped, with_stmt. rewrite acquire_eq.
  destruct (body w) as [[u|e] w2].
  - pose proof (release_returns (started m (perf_counter_now w)) None w2
                  (start_time_of_started m _)) as R.
    destruct (release _ None w2) as [r w3]; simpl in *. now subst r.
  - pose proof (release_returns (started m (perf_counter_now w)) (Some e) w2
                  (start_time_of_started m _)) as R.
    destruct (release _ (Some e) w2) as [r w3]; simpl in *. now subst r.
Qed.

(* ===================================================================== *)
(** * The claims *)
(* ===================================================================== *)

(** C1, as the specification words it, fails in span mode: a [SpanTime]
    released on the error path increments no error counter (the traces
    program has none), so "exactly one error-count increment" does not
    hold there. *)
Lemma span_error_release_increments_no_counter :
  error_increments (world0 0.01)
    (snd (release (started main_span 9) None (world0 0.01))) = 0 /\
  ~ one_duration_record_one_error_increment
      (started main_span 9) None (world0 0.01).
Proof.
  split; [reflexivity|].
  intros [_ H]. specialize (H eq_refl). vm_compute in H. discriminate.
Qed.

(** C1 (amended): a released [HistrogramTimer] produces exactly one
    duration record on a histogram and exactly one error-count increment on
    the error path (none otherwise), and no span.  A released [SpanTime]
    produces exactly one span, ended, and touches no counter and no
    histogram: its error path is the span's status ERROR with one recorded
    exception, and its ok path carries the [duration] attribute once. *)
Theorem release_records_exactly_once
    (m : ScopedMeasurement) (exc : option Py.Exc) (w : World) (t0 : float) :
  start_time_of m = Some t0 ->
  let w' := snd (release m exc w) in
  match m with
  | Metric _ =>
      count is_histogram_record (new_calls w w') = 1 /\
      error_increments w w' = (if simulated_error w then 1 else 0) /\
      new_spans w w' = []
  | Trace _ =>
      (exists s, new_spans w w' = [s] /\ span_end_time s <> None /\
         (simulated_error w = true ->
            span_status s = StatusCode.ERROR /\ List.length (span_events s) = 1) /\
         (simulated_error w = false ->
            span_status s = StatusCode.OK /\
            List.length (filter (fun kv => String.eqb (fst kv) "duration")
                           (span_attributes s)) = 1)) /\
      error_increments w w' = 0 /\
      count is_histogram_record (new_calls w w') = 0
  end.
Proof.
  destruct m as [t|t]; simpl; intros H.
  - destruct (metric_new_calls t exc w H) as [Hc Hs].
    unfold error_increments. rewrite Hc, Hs.
    unfold metric_release_calls.
    destruct (simulated_error w); repeat split; reflexivity.
  - destruct (trace_new_calls t exc w H) as [Hc Hs].
    unfold error_increments. rewrite Hc, Hs.
    unfold trace_release_calls, trace_release_span.
    split.
    + eexists; split; [reflexivity|].
      destruct (simulated_error w); simpl;
        (split; [discriminate|]); split; intros E;
        try discriminate; split; reflexivity.
    + destruct (simulated_error w); split; reflexivity.
Qed.

Lemma release_records_exactly_once_witness :
  start_time_of (started main_timer 9) = Some 9%float /\
  (count is_histogram_record
     (new_calls (world0 0.01)
        (snd (release (started main_timer 9) None (world0 0.01)))) = 1 /\
   error_increments (world0 0.01)
     (snd (release (started main_timer 9) None (world0 0.01))) = 1 /\
   new_spans (world0 0.01)
     (snd (release (started main_timer 9) None (world0 0.01))) = []).
Proof.
  split; [reflexivity|].
  exact (release_records_exactly_once (started main_timer 9) None
           (world0 0.01) (t0 := 9%float) eq_refl).
Defined.

(** C2 fails in span mode.  The release of [SpanTime] with a sample below
    0.05 raises before [set_attribute('duration', ...)] is reached: the span
    it ends carries no [duration] attribute and no histogram is written,
    while the release of [HistrogramTimer] in the same world does record the
    duration next to the error. *)
Theorem span_error_release_drops_duration :
  let w := world0 0.01 in
  simulated_error w = true /\
  (exists s,
     new_spans w (snd (release (started main_span 9) None w)) = [s] /\
     span_status s = StatusCode.ERROR /\
     dict_get (span_attributes s) "duration" = None) /\
  duration_records w (snd (release (started main_span 9) None w)) = 0 /\
  duration_records w (snd (release (started main_timer 9) None w)) = 1.
Proof.
  cbv zeta. split; [reflexivity|]. split; [|split; reflexivity].
  eexists. split; [reflexivity|]. split; reflexivity.
Qed.

(** C3, as the specification words it, fails: a release that is handed
    the exception of the work (here a [KeyboardInterrupt], and a
    cancellation) with a sample of 0.5 leaves an ok outcome in both modes. *)
Lemma raised_exit_with_high_sample_is_ok :
  ~ raised_exit_is_error (started main_timer 9)
      (Py.mkExc Py.KeyboardInterrupt "") (world0 0.5) /\
  ~ raised_exit_is_error (started main_span 9)
      (Py.mkExc Py.CancelledError "") (world0 0.5).
Proof.
  split; intros H; vm_compute in H; discriminate.
Qed.

(** C3 (amended): when the instrumented work raises (a fault or a
    cancellation), the release still runs, in the world the work left, and
    the exception goes on to the caller; the release does not look at the
    exception it is handed: its result is the one of a release without
    exception, and the outcome it records is error exactly when the sample
    it draws is below 0.05, ok otherwise. *)
Theorem raised_work_is_released_and_classified_by_sample
    (m : ScopedMeasurement) (body : M unit) (w w2 : World) (e : Py.Exc) :
  body w = (Py.Raised e, w2) ->
  let m' := started m (perf_counter_now w) in
  scoped m body w = (Py.Raised e, snd (release m' (Some e) w2)) /\
  release m' (Some e) w2 = release m' None w2 /\
  observed_outcome m' w2 (snd (release m' (Some e) w2)) =
    (if simulated_error w2 then StatusCode.ERROR else StatusCode.OK).
Proof.
  intros Hb m'. split; [|split].
  - rewrite scoped_eq, Hb. reflexivity.
  - destruct m; reflexivity.
  - subst m'. destruct m as [t|t]; simpl.
    + destruct (metric_new_calls
                  (Metrics.mkHistrogramTimer (Metrics.self_duration_histogram t)
                     (Metrics.self_error_counter t) (Metrics.self_attributes t)
                     (Some (perf_counter_now w)))
                  (Some e) w2 eq_refl) as [Hc _].
      unfold error_increments. rewrite Hc. unfold metric_release_calls.
      destruct (simulated_error w2); reflexivity.
    + destruct (trace_new_calls
                  (Traces.mkSpanTime (Traces.self_name t) (Traces.self_attributes t)
                     (Some (perf_counter_now w)))
                  (Some e) w2 eq_refl) as [_ Hs].
      rewrite Hs. unfold trace_release_span.
      destruct (simulated_error w2); reflexivity.
Qed.

Lemma raised_work_is_released_and_classified_by_sample_witness :
  interrupted_work (world0 0.5)
  = (Py.Raised (Py.mkExc Py.KeyboardInterrupt ""),
     snd (elapse 1.5 500 (world0 0.5))) /\
  observed_outcome (started main_timer 10) (snd (elapse 1.5 500 (world0 0.5)))
    (snd (release (started main_timer 10)
            (Some (Py.mkExc Py.KeyboardInterrupt ""))
            (snd (elapse 1.5 500 (world0 0.5))))) = StatusCode.OK.
Proof.
  split; [reflexivity|].
  exact (proj2 (proj2
    (raised_work_is_released_and_classified_by_sample main_timer
       interrupted_work (world0 0.5) (w2 := snd (elapse 1.5 500 (world0 0.5)))
       (e := Py.mkExc Py.KeyboardInterrupt "") eq_refl))).
Defined.

(** C4, as the specification words it, fails: with the clock at 1000 when
    the scope is acquired and work that lasts 500, the span of the scope
    starts at 1500, after the work. *)
Lemma span_starts_after_the_work :
  (exists s,
     new_spans (world0 0.5) (snd (scoped main_span sleeping_work (world0 0.5))) = [s] /\
     span_start_time s = 1500%Z /\ time_ns_now (world0 0.5) = 1000%Z) /\
  ~ span_starts_at_acquisition main_span sleeping_work (world0 0.5).
Proof.
  split.
  - eexists. split; [reflexivity|]. split; reflexivity.
  - intros H. specialize (H _ (or_introl eq_refl)). vm_compute in H. discriminate.
Qed.

(** C4 (amended): in span mode acquisition creates no span: it only stores
    the reading of the monotonic clock on the timer.  The span is created
    and ended by the release, after the instrumented work: its start time
    and its end time are both the clock's reading at release, and the time
    the work took is carried, on the ok path, by the [duration] attribute,
    the difference of the two monotonic readings times 1000. *)
Theorem span_is_started_and_ended_at_release
    (name : string) (attributes : option Attributes)
    (body : M unit) (w w2 : World) (r : Py.Outcome unit) :
  body w = (r, w2) ->
  let m := Trace (Traces.__init__ name attributes) in
  acquire m w = (Py.Returned (started m (perf_counter_now w)), w) /\
  exists s,
    new_spans w2 (snd (scoped m body w)) = [s] /\
    span_name s = name /\
    span_start_time s = time_ns_now w2 /\
    span_end_time s = Some (time_ns_now w2) /\
    (simulated_error w2 = false ->
       span_attributes s =
         [("duration",
           AFloat ((perf_counter_now w2 - perf_counter_now w) * 1000)%float)]).
Proof.
  intros Hb m. split; [apply acquire_eq|].
  exists (trace_release_span
            (Traces.mkSpanTime name (or_empty attributes) (Some (perf_counter_now w)))
            (perf_counter_now w) w2).
  split.
  - rewrite scoped_eq, Hb.
    destruct r as [u|e]; simpl;
      apply (proj2 (trace_new_calls
                      (Traces.mkSpanTime name (or_empty attributes)
                         (Some (perf_counter_now w))) _ w2 eq_refl)).
  - unfold trace_release_span.
    destruct (simulated_error w2); simpl; repeat split; try reflexivity.
    discriminate.
Qed.

Lemma span_is_started_and_ended_at_release_witness :
  sleeping_work (world0 0.5) = (Py.Returned tt, snd (sleeping_work (world0 0.5))) /\
  exists s,
    new_spans (snd (sleeping_work (world0 0.5)))
      (snd (scoped main_span sleeping_work (world0 0.5))) = [s] /\
    span_name s = "data-process" /\
    span_start_time s = 1500%Z /\
    span_end_time s = Some 1500%Z /\
    (simulated_error (snd (sleeping_work (world0 0.5))) = false ->
     span_attributes s = [("duration", AFloat 1500)]).
Proof.
  split; [reflexivity|].
  exact (proj2 (span_is_started_and_ended_at_release "data-process" None
                  sleeping_work (world0 0.5)
                  (w2 := snd (sleeping_work (world0 0.5)))
                  (r := Py.Returned tt) eq_refl)).
Defined.

(** C5 fails on the code.  A timer built on a histogram of the caller's own
    stores that handle, but its release records into the module's
    [duration_histogram]: the caller's histogram receives nothing. *)
Theorem release_records_into_module_histogram :
  let w := world0 0.5 in
  let w' := snd (release (started latency_timer 9) None w) in
  start_time_of (started latency_timer 9) = Some 9%float /\
  match started latency_timer 9 with
  | Metric t => Metrics.self_duration_histogram t = latency_histogram
  | Trace _ => False
  end /\
  new_calls w w' =
    [HistogramRecord Metrics.duration_histogram 1000 [("op", AStr "data-process")]] /\
  latency_histogram <> Metrics.duration_histogram /\
  (forall v a, ~ In (HistogramRecord latency_histogram v a) (new_calls w w')).
Proof.
  cbv zeta. split; [reflexivity|]. split; [reflexivity|]. split; [reflexivity|].
  split; [discriminate|].
  intros v a [H|[]]. discriminate.
Qed.

(** C6: on the error path the release writes exactly one log record, of
    severity ERROR; in metric mode it adds exactly 1 to the timer's own
    error counter with the timer's own attributes, in span mode it sets the
    span's status to ERROR and attaches the exception it caught. *)
Theorem error_release_counts_marks_and_logs
    (m : ScopedMeasurement) (exc : option Py.Exc) (w : World) (t0 : float) :
  start_time_of m = Some t0 ->
  simulated_error w = true ->
  let w' := snd (release m exc w) in
  (exists msg,
     filter is_log (new_calls w w') = [LogRecord logging.ERROR msg]) /\
  match m with
  | Metric t =>
      filter is_counter_add (new_calls w w') =
        [CounterAdd (Metrics.self_error_counter t) 1 (Metrics.self_attributes t)]
  | Trace t =>
      exists s, new_spans w w' = [s] /\
                span_status s = StatusCode.ERROR /\
                span_events s = [Py.mkExc Py.Exception "simulated error"]
  end.
Proof.
  destruct m as [t|t]; simpl; intros H E.
  - destruct (metric_new_calls t exc w H) as [Hc _]. rewrite Hc.
    unfold metric_release_calls. rewrite E. simpl.
    split; [eexists|]; reflexivity.
  - destruct (trace_new_calls t exc w H) as [Hc Hs]. rewrite Hc, Hs.
    unfold trace_release_calls, trace_release_span. rewrite E. simpl.
    split; [eexists; reflexivity|].
    eexists. split; [reflexivity|]. split; reflexivity.
Qed.

Lemma error_release_counts_marks_and_logs_witness :
  start_time_of (started main_timer 9) = Some 9%float /\
  simulated_error (world0 0.01) = true /\
  (exists msg,
     filter is_log
       (new_calls (world0 0.01)
          (snd (release (started main_timer 9) None (world0 0.01))))
     = [LogRecord logging.ERROR msg]) /\
  filter is_counter_add
    (new_calls (world0 0.01)
       (snd (release (started main_timer 9) None (world0 0.01))))
  = [CounterAdd Metrics.error_counter 1 [("op", AStr "data-process")]].
Proof.
  split; [reflexivity|]. split; [reflexivity|].
  exact (@error_release_counts_marks_and_logs (started main_timer 9) None
           (world0 0.01) 9%float eq_refl eq_refl).
Defined.

(** C7: a release draws one sample; the outcome it records is error exactly
    when that sample is below 0.05, and it is ok when the sample is at
    least 0.05. *)
Theorem outcome_is_error_iff_sample_below_threshold
    (m : ScopedMeasurement) (exc : option Py.Exc) (w : World) (t0 : float) :
  start_time_of m = Some t0 ->
  let w' := snd (release m exc w) in
  random_drawn w' = S (random_drawn w) /\
  (observed_outcome m w w' = StatusCode.ERROR <-> (sample w <? 0.05)%float = true) /\
  ((0.05 <=? sample w)%float = true -> observed_outcome m w w' = StatusCode.OK).
Proof.
  intros H w'.
  assert (D : random_drawn w' = S (random_drawn w)).
  { subst w'. destruct m as [t|t]; simpl in *.
    - now rewrite (metrics_exit_eq t exc w H).
    - now rewrite (traces_exit_eq t exc w H). }
  assert (O : observed_outcome m w w' =
              if simulated_error w then StatusCode.ERROR else StatusCode.OK).
  { subst w'. destruct m as [t|t]; simpl in *.
    - destruct (metric_new_calls t exc w H) as [Hc _].
      unfold error_increments. rewrite Hc. unfold metric_release_calls.
      destruct (simulated_error w); reflexivity.
    - destruct (trace_new_calls t exc w H) as [_ Hs]. rewrite Hs.
      unfold trace_release_span. destruct (simulated_error w); reflexivity. }
  split; [exact D|]. rewrite O. unfold simulated_error. split.
  - destruct (sample w <? 0.05)%float; split; intros; congruence.
  - intros L. now rewrite (leb_not_ltb L).
Qed.

Lemma outcome_is_error_iff_sample_below_threshold_witness :
  start_time_of (started main_span 9) = Some 9%float /\
  (0.05 <=? sample (world0 0.05))%float = true /\
  observed_outcome (started main_span 9) (world0 0.05)
    (snd (release (started main_span 9) None (world0 0.05))) = StatusCode.OK.
Proof.
  split; [reflexivity|]. split; [reflexivity|].
  exact (proj2 (proj2 (@outcome_is_error_iff_sample_below_threshold
                         (started main_span 9) None (world0 0.05)
                         9%float eq_refl)) eq_refl).
Defined.

(** C8: the exception raised for the simulated error is caught inside the
    release.  A release never ends in an exception, whatever the sample,
    and a scope whose work returns normally returns normally. *)
Theorem injected_failure_never_escapes
    (m : ScopedMeasurement) (body : M unit) (w w2 : World) (exc : option Py.Exc) :
  body w = (Py.Returned tt, w2) ->
  fst (scoped m body w) = Py.Returned tt /\
  (forall e, fst (release (started m (perf_counter_now w)) exc w2) <> Py.Raised e) /\
  (exists v, fst (release (started m (perf_counter_now w)) exc w2) = Py.Returned v).
Proof.
  intros Hb.
  pose proof (release_returns (started m (perf_counter_now w)) exc w2
                (start_time_of_started m _)) as R.
  split; [|split].
  - rewrite scoped_eq, Hb. reflexivity.
  - intros e. rewrite R. discriminate.
  - eexists. exact R.
Qed.

Lemma injected_failure_never_escapes_witness :
  sleeping_work (world0 0.01) = (Py.Returned tt, snd (sleeping_work (world0 0.01))) /\
  simulated_error (snd (sleeping_work (world0 0.01))) = true /\
  fst (scoped main_timer sleeping_work (world0 0.01)) = Py.Returned tt /\
  fst (scoped main_span sleeping_work (world0 0.01)) = Py.Returned tt.
Proof.
  split; [reflexivity|]. split; [reflexivity|]. split.
  - exact (proj1 (@injected_failure_never_escapes main_timer sleeping_work
                    (world0 0.01) (snd (sleeping_work (world0 0.01)))
                    None eq_refl)).
  - exact (proj1 (@injected_failure_never_escapes main_span sleeping_work
                    (world0 0.01) (snd (sleeping_work (world0 0.01)))
                    None eq_refl)).
Defined.

(** C9, as the specification words it, fails: under a configuration that
    asks for TLS on an [http] endpoint both exporters are plaintext, the
    source having passed [insecure=True]. *)
Lemma exporter_ignores_configured_security :
  cfg_insecure tls_config = false /\
  exporter_insecure (Metrics.exporter tls_config) = true /\
  exporter_insecure (Traces.exporter tls_config) = true /\
  ~ security_from_configuration Metrics.exporter /\
  ~ security_from_configuration Traces.exporter.
Proof.
  repeat split; try reflexivity;
    intros H; specialize (H tls_config); discriminate.
Qed.

(** C9 (amended): the security mode the configuration asks for is never
    used: both programs pass [insecure=True] to their exporter.  For every
    configuration the exporter is plaintext, unless the configured endpoint
    has the scheme [https], in which case the exporter is secure; two
    configurations with the same endpoint give the same exporter. *)
Theorem exporter_security_follows_source_and_scheme (cfg : Config) :
  let https := String.eqb (ep_scheme (cfg_endpoint cfg)) "https" in
  exporter_insecure (Metrics.exporter cfg) = negb https /\
  exporter_insecure (Traces.exporter cfg) = negb https /\
  (forall cfg', cfg_endpoint cfg' = cfg_endpoint cfg ->
     Metrics.exporter cfg' = Metrics.exporter cfg /\
     Traces.exporter cfg' = Traces.exporter cfg).
Proof.
  unfold Metrics.exporter, Traces.exporter, OTLPMetricExporter,
    OTLPSpanExporter, OTLPExporter_init. cbn zeta.
  split; [|split].
  - destruct (String.eqb (ep_scheme (cfg_endpoint cfg)) "https"); reflexivity.
  - destruct (String.eqb (ep_scheme (cfg_endpoint cfg)) "https"); reflexivity.
  - intros cfg' E. rewrite E. split; reflexivity.
Qed.

(** Under a configuration that asks for plaintext on an [https] endpoint
    both exporters are secure. *)
Lemma exporter_on_https_endpoint_is_secure :
  cfg_insecure plaintext_https_config = true /\
  exporter_insecure (Metrics.exporter plaintext_https_config) = false /\
  exporter_insecure (Traces.exporter plaintext_https_config) = false /\
  exporter_endpoint (Metrics.exporter plaintext_https_config)
    = "collector.example:4317".
Proof. repeat split. Qed.

(** C10: the release of both timers returns [None], which is falsy, so the
    [with] statement does not swallow the exception of the instrumented
    work: the scope ends in that same exception, in the world the release
    left, after its telemetry was written (the histogram record in metric
    mode, the ended span in span mode). *)
Theorem release_returns_None_and_exception_propagates
    (m : ScopedMeasurement) (body : M unit) (w w2 : World) (e : Py.Exc) :
  body w = (Py.Raised e, w2) ->
  let m' := started m (perf_counter_now w) in
  fst (release m' (Some e) w2) = Py.Returned Py.None_ /\
  fst (release m' None w2) = Py.Returned Py.None_ /\
  Py.truthy Py.None_ = false /\
  fst (scoped m body w) = Py.Raised e /\
  match m with
  | Metric _ =>
      count is_histogram_record (new_calls w2 (snd (scoped m body w))) = 1
  | Trace _ =>
      exists s, new_spans w2 (snd (scoped m body w)) = [s] /\
                span_end_time s = Some (time_ns_now w2)
  end.
Proof.
  intros Hb m'.
  split; [apply release_returns with (t0 := perf_counter_now w);
          apply start_time_of_started|].
  split; [apply release_returns with (t0 := perf_counter_now w);
          apply start_time_of_started|].
  split; [reflexivity|].
  rewrite scoped_eq, Hb. split; [reflexivity|].
  destruct m as [t|t]; simpl.
  - destruct (metric_new_calls
                (Metrics.mkHistrogramTimer (Metrics.self_duration_histogram t)
                   (Metrics.self_error_counter t) (Metrics.self_attributes t)
                   (Some (perf_counter_now w)))
                (Some e) w2 eq_refl) as [Hc _].
    rewrite Hc. unfold metric_release_calls.
    destruct (simulated_error w2); reflexivity.
  - destruct (trace_new_calls
                (Traces.mkSpanTime (Traces.self_name t) (Traces.self_attributes t)
                   (Some (perf_counter_now w)))
                (Some e) w2 eq_refl) as [_ Hs].
    rewrite Hs. eexists. split; [reflexivity|].
    unfold trace_release_span. destruct (simulated_error w2); reflexivity.
Qed.

Lemma release_returns_None_and_exception_propagates_witness :
  interrupted_work (world0 0.5)
  = (Py.Raised (Py.mkExc Py.KeyboardInterrupt ""),
     snd (sleeping_work (world0 0.5))) /\
  fst (scoped main_timer interrupted_work (world0 0.5))
  = Py.Raised (Py.mkExc Py.KeyboardInterrupt "") /\
  count is_histogram_record
    (new_calls (snd (sleeping_work (world0 0.5)))
       (snd (scoped main_timer interrupted_work (world0 0.5)))) = 1.
Proof.
  split; [reflexivity|].
  exact (proj2 (proj2 (proj2
    (@release_returns_None_and_exception_propagates main_timer
       interrupted_work (world0 0.5)
       (snd (sleeping_work (world0 0.5)))
       (Py.mkExc Py.KeyboardInterrupt "") eq_refl)))).
Defined.

(* ===================================================================== *)
(** * The loops of the two programs *)
(* ===================================================================== *)

Lemma count_app (p : Call -> bool) (l k : list Call) :
  count p (l ++ k) = count p l + count p k.
Proof. unfold count. now rewrite filter_app, length_app. Qed.

(** The work draws one sample, sleeps, and writes nothing. *)
Lemma main_work_run time_sleep w :
  sleeps time_sleep -> valid_lengths w ->
  exists w', main_work time_sleep w = (Py.Returned tt, w') /\
             calls w' = calls w /\ spans w' = spans w /\
             random_source w' = random_source w /\
             random_drawn w' = S (random_drawn w).
Proof.
  intros Hs Hv.
  unfold main_work, random_uniform, bind, random_random, ret.
  destruct (Hs (sleep_length (random_source w (random_drawn w)))
              (mkWorld (perf_counter_now w) (time_ns_now w) (random_source w)
                 (S (random_drawn w)) (spans w) (calls w))
              (Hv _)) as (w' & E & Hc & Hsp & Hr & Hd).
  exists w'. unfold sleep_length in E. rewrite E. simpl in *. auto.
Qed.

(** One scope of the metrics loop. *)
Lemma main_timer_scope_run time_sleep w :
  sleeps time_sleep -> valid_lengths w ->
  exists w' l,
    scoped main_timer (main_work time_sleep) w = (Py.Returned tt, w') /\
    random_source w' = random_source w /\
    random_drawn w' = S (S (random_drawn w)) /\
    spans w' = spans w /\
    calls w' = calls w ++ l /\
    count is_histogram_record l = 1 /\
    count is_counter_add l = injected_errors (random_source w) (random_drawn w) 1 /\
    count is_log l = injected_errors (random_source w) (random_drawn w) 1 /\
    Forall main_timer_call l.
Proof.
  intros Hs Hv.
  destruct (main_work_run Hs Hv) as (w2 & E & Hc & Hsp & Hr & Hd).
  rewrite scoped_eq, E. simpl.
  erewrite metrics_exit_eq by reflexivity.
  eexists. eexists. split; [reflexivity|]. simpl.
  rewrite Hc, Hsp, Hr, Hd. repeat (split; [reflexivity|]).
  unfold metric_release_calls, simulated_error, sample. rewrite Hr, Hd. simpl.
  destruct (random_source w (S (random_drawn w)) <? 0.05)%float; simpl;
    repeat split; repeat constructor.
Qed.

(** One scope of the traces loop. *)
Lemma main_span_scope_run time_sleep w :
  sleeps time_sleep -> valid_lengths w ->
  exists w' s,
    scoped main_span (main_work time_sleep) w = (Py.Returned tt, w') /\
    random_source w' = random_source w /\
    random_drawn w' = S (S (random_drawn w)) /\
    spans w' = spans w ++ [s] /\
    main_span_ended s /\
    (if is_error_span s then 1 else 0)
      = injected_errors (random_source w) (random_drawn w) 1 /\
    calls w' = calls w ++
      repeat (LogRecord logging.ERROR "failed transaction")
        (injected_errors (random_source w) (random_drawn w) 1).
Proof.
  intros Hs Hv.
  destruct (main_work_run Hs Hv) as (w2 & E & Hc & Hsp & Hr & Hd).
  rewrite scoped_eq, E. simpl.
  erewrite traces_exit_eq by reflexivity.
  eexists. eexists. split; [reflexivity|]. simpl.
  rewrite Hc, Hsp, Hr, Hd. repeat (split; [reflexivity|]).
  unfold trace_release_span, trace_release_calls, simulated_error, sample,
    main_span_ended.
  rewrite Hr, Hd. simpl.
  destruct (random_source w (S (random_drawn w)) <? 0.05)%float; simpl;
    repeat split; discriminate.
Qed.

Lemma valid_lengths_ext w w' :
  random_source w' = random_source w -> valid_lengths w -> valid_lengths w'.
Proof. unfold valid_lengths. intros E H i. rewrite E. apply H. Qed.

(** The metrics loop, by induction on the number of scopes. *)
Lemma metrics_loop_run time_sleep :
  sleeps time_sleep ->
  forall n i w, valid_lengths w ->
  exists w' l,
    for_range_from i n (fun _ => scoped main_timer (main_work time_sleep)) w
      = (Py.Returned tt, w') /\
    random_source w' = random_source w /\
    random_drawn w' = 2 * n + random_drawn w /\
    spans w' = spans w /\
    calls w' = calls w ++ l /\
    count is_histogram_record l = n /\
    count is_counter_add l = injected_errors (random_source w) (random_drawn w) n /\
    count is_log l = injected_errors (random_source w) (random_drawn w) n /\
    Forall main_timer_call l.
Proof.
  intros Hs. induction n as [|n IH]; intros i w Hv.
  - exists w, []. simpl. rewrite app_nil_r. repeat split. constructor.
  - destruct (main_timer_scope_run Hs Hv)
      as (w1 & l1 & E1 & Hr1 & Hd1 & Hsp1 & Hc1 & Hh1 & Ha1 & Hl1 & Hf1).
    destruct (IH (S i) w1 (@valid_lengths_ext w w1 Hr1 Hv))
      as (w' & l & E & Hr & Hd & Hsp & Hc & Hh & Ha & Hl & Hf).
    exists w', (l1 ++ l).
    cbn [for_range_from]. unfold bind at 1. rewrite E1, E.
    split; [reflexivity|].
    split; [congruence|].
    split; [rewrite Hd, Hd1; simpl; now rewrite <- !plus_n_Sm|].
    split; [congruence|].
    split; [rewrite Hc, Hc1; now rewrite app_assoc|].
    rewrite !count_app, Hh1, Hh, Ha1, Ha, Hl1, Hl, Hr1, Hd1.
    cbn [injected_errors]. rewrite !Nat.add_0_r.
    repeat split; try reflexivity.
    apply Forall_app; split; assumption.
Qed.

Lemma repeat_app_plus (c : Call) (a b : nat) :
  repeat c a ++ repeat c b = repeat c (a + b).
Proof. symmetry. apply repeat_app. Qed.

(** The traces loop, by induction on the number of scopes. *)
Lemma traces_loop_run time_sleep :
  sleeps time_sleep ->
  forall n i w, valid_lengths w ->
  exists w' ls,
    for_range_from i n (fun _ => scoped main_span (main_work time_sleep)) w
      = (Py.Returned tt, w') /\
    random_source w' = random_source w /\
    random_drawn w' = 2 * n + random_drawn w /\
    spans w' = spans w ++ ls /\
    List.length ls = n /\
    Forall main_span_ended ls /\
    List.length (filter is_error_span ls)
      = injected_errors (random_source w) (random_drawn w) n /\
    calls w' = calls w ++
      repeat (LogRecord logging.ERROR "failed transaction")
        (injected_errors (random_source w) (random_drawn w) n).
Proof.
  intros Hs. induction n as [|n IH]; intros i w Hv.
  - exists w, []. simpl. rewrite !app_nil_r. repeat split. constructor.
  - destruct (main_span_scope_run Hs Hv)
      as (w1 & s & E1 & Hr1 & Hd1 & Hsp1 & He1 & Hi1 & Hc1).
    destruct (IH (S i) w1 (@valid_lengths_ext w w1 Hr1 Hv))
      as (w' & ls & E & Hr & Hd & Hsp & Hn & Hf & Hi & Hc).
    exists w', (s :: ls).
    cbn [for_range_from]. unfold bind at 1. rewrite E1, E.
    split; [reflexivity|].
    split; [congruence|].
    split; [rewrite Hd, Hd1; simpl; now rewrite <- !plus_n_Sm|].
    split; [rewrite Hsp, Hsp1, <- app_assoc; reflexivity|].
    split; [simpl; now rewrite Hn|].
    split; [now constructor|].
    rewrite Hr1, Hd1 in Hi, Hc.
    cbn [injected_errors] in *. rewrite Nat.add_0_r in Hi1, Hc1.
    split.
    + cbn [filter]. rewrite <- Hi1, <- Hi.
      destruct (is_error_span s); reflexivity.
    + rewrite Hc, Hc1, <- app_assoc, repeat_app_plus. reflexivity.
Qed.

Lemma ideal_sleep_sleeps : sleeps ideal_sleep.
Proof.
  intros secs w _. eexists. split; [reflexivity|]. simpl. auto.
Defined.

Lemma world0_valid_lengths (r : float) :
  sleep_ok (sleep_length r) = true -> valid_lengths (world0 r).
Proof. intros H i. exact H. Defined.

(** X1: the metrics loop.  [n] scopes of the module's timer around the
    sleeping work return normally and write exactly [n] duration records;
    the error counter is incremented once for each release whose sample is
    below 0.05 and as many error log records are written; every call is made
    on the module's instruments with the attributes of the timer, no span is
    created, and two samples are drawn per scope. *)
Theorem metrics_loop_records_every_scope
    (time_sleep : float -> M unit) (n : nat) (w : World) :
  sleeps time_sleep -> valid_lengths w ->
  let run := scopes n main_timer (main_work time_sleep) w in
  fst run = Py.Returned tt /\
  count is_histogram_record (new_calls w (snd run)) = n /\
  error_increments w (snd run)
    = injected_errors (random_source w) (random_drawn w) n /\
  count is_log (new_calls w (snd run)) = error_increments w (snd run) /\
  Forall main_timer_call (new_calls w (snd run)) /\
  new_spans w (snd run) = [] /\
  random_drawn (snd run) = 2 * n + random_drawn w.
Proof.
  intros Hs Hv run.
  destruct (@metrics_loop_run time_sleep Hs n 0 w Hv)
    as (w' & l & E & Hr & Hd & Hsp & Hc & Hh & Ha & Hl & Hf).
  subst run. unfold scopes, for_range, error_increments, new_calls, new_spans.
  rewrite E. simpl. rewrite Hc, Hsp, skipn_app_exact, skipn_all.
  repeat split; try assumption. congruence.
Qed.

Lemma metrics_loop_records_every_scope_witness :
  sleeps ideal_sleep /\ valid_lengths (world0 0.01) /\
  fst (metrics_main ideal_sleep (world0 0.01)) = Py.Returned tt /\
  count is_histogram_record
    (new_calls (world0 0.01) (snd (metrics_main ideal_sleep (world0 0.01)))) = 50 /\
  error_increments (world0 0.01) (snd (metrics_main ideal_sleep (world0 0.01)))
    = injected_errors (fun _ => 0.01%float) 0 50.
Proof.
  split; [exact ideal_sleep_sleeps|].
  split; [exact (@world0_valid_lengths 0.01 eq_refl)|].
  pose proof (@metrics_loop_records_every_scope ideal_sleep 50 (world0 0.01)
                ideal_sleep_sleeps (@world0_valid_lengths 0.01 eq_refl)) as H.
  exact (conj (proj1 H) (conj (proj1 (proj2 H)) (proj1 (proj2 (proj2 H))))).
Defined.

(** X2: the traces loop.  [n] scopes of the module's span timer around the
    sleeping work return normally and add exactly [n] spans, each named
    [data-process], ended, and either ok with a [duration] attribute or in
    error with the recorded exception and no attribute; the spans in error
    are those of the releases whose sample is below 0.05, and the only calls
    made are one error log record for each of them. *)
Theorem traces_loop_ends_one_span_per_scope
    (time_sleep : float -> M unit) (n : nat) (w : World) :
  sleeps time_sleep -> valid_lengths w ->
  let run := scopes n main_span (main_work time_sleep) w in
  fst run = Py.Returned tt /\
  List.length (new_spans w (snd run)) = n /\
  Forall main_span_ended (new_spans w (snd run)) /\
  List.length (filter is_error_span (new_spans w (snd run)))
    = injected_errors (random_source w) (random_drawn w) n /\
  new_calls w (snd run)
    = repeat (LogRecord logging.ERROR "failed transaction")
        (injected_errors (random_source w) (random_drawn w) n) /\
  random_drawn (snd run) = 2 * n + random_drawn w.
Proof.
  intros Hs Hv run.
  destruct (@traces_loop_run time_sleep Hs n 0 w Hv)
    as (w' & ls & E & Hr & Hd & Hsp & Hn & Hf & Hi & Hc).
  subst run. unfold scopes, for_range, new_calls, new_spans.
  rewrite E. simpl. rewrite Hc, Hsp, !skipn_app_exact.
  repeat split; assumption.
Qed.

Lemma traces_loop_ends_one_span_per_scope_witness :
  sleeps ideal_sleep /\ valid_lengths (world0 0.5) /\
  fst (traces_main ideal_sleep (world0 0.5)) = Py.Returned tt /\
  List.length
    (new_spans (world0 0.5) (snd (traces_main ideal_sleep (world0 0.5)))) = 50.
Proof.
  split; [exact ideal_sleep_sleeps|].
  split; [exact (@world0_valid_lengths 0.5 eq_refl)|].
  pose proof (@traces_loop_ends_one_span_per_scope ideal_sleep 50 (world0 0.5)
                ideal_sleep_sleeps (@world0_valid_lengths 0.5 eq_refl)) as H.
  exact (conj (proj1 H) (proj1 (proj2 H))).
Defined.

Lemma started_started m t0 t1 : started (started m t0) t1 = started m t1.
Proof. destruct m; reflexivity. Qed.

Lemma or_empty_eq (attributes : option Attributes) :
  or_empty attributes = match attributes with Some d => d | None => [] end.
Proof. destruct attributes as [[|kv d]|]; reflexivity. Qed.

(** X3: a timer that was constructed but never entered cannot be released:
    [__exit__] of either class ends in an [AttributeError] for the missing
    [start_time], before it draws a sample or writes any telemetry. *)
Theorem release_before_acquisition_raises
    (h c : Instrument) (name : string) (attributes : option Attributes)
    (exc : option Py.Exc) (w : World) :
  (exists e, Metrics.__exit__ (Metrics.__init__ h c attributes) exc w
             = (Py.Raised e, w) /\
             Py.exc_class e = Py.AttributeError) /\
  (exists e, Traces.__exit__ (Traces.__init__ name attributes) exc w
             = (Py.Raised e, w) /\
             Py.exc_class e = Py.AttributeError).
Proof.
  split; eexists; split; reflexivity.
Qed.

(** X4: a timer object can be used for a second scope: acquisition
    overwrites the start time kept from an earlier scope, so the scope of a
    timer that was entered before is the scope of a fresh one. *)
Theorem scope_of_reused_timer
    (m : ScopedMeasurement) (t0 : float) (body : M unit) (w : World) :
  acquire (started m t0) w = acquire m w /\
  scoped (started m t0) body w = scoped m body w.
Proof.
  split.
  - rewrite !acquire_eq, started_started. reflexivity.
  - rewrite !scoped_eq, started_started. reflexivity.
Qed.

(** X5: the attributes given to [SpanTime] are stored and never used: the
    scope of a span timer is the same for every attribute argument, and the
    span it ends carries none of them. *)
Theorem span_scope_drops_attributes
    (name : string) (a a' : option Attributes) (body : M unit) (w : World) :
  scoped (Trace (Traces.__init__ name a)) body w
  = scoped (Trace (Traces.__init__ name a')) body w.
Proof.
  rewrite !scoped_eq. destruct (body w) as [[u|e] w2]; simpl;
    erewrite !traces_exit_eq by reflexivity; reflexivity.
Qed.

(** X6: the histogram handle given to [HistrogramTimer] is stored and never
    used: the scope of a timer is the same for every handle. *)
Theorem metric_scope_ignores_histogram_handle
    (h h' c : Instrument) (a : option Attributes) (body : M unit) (w : World) :
  scoped (Metric (Metrics.__init__ h c a)) body w
  = scoped (Metric (Metrics.__init__ h' c a)) body w.
Proof.
  rewrite !scoped_eq. destruct (body w) as [[u|e] w2]; simpl;
    erewrite !metrics_exit_eq by reflexivity; reflexivity.
Qed.

(** X7: a release only appends.  The calls and the spans that were there
    before it are still there, unchanged and in the same place, and it adds
    at most three calls and at most one span. *)
Theorem release_only_appends
    (m : ScopedMeasurement) (exc : option Py.Exc) (w : World) (t0 : float) :
  start_time_of m = Some t0 ->
  let w' := snd (release m exc w) in
  firstn (List.length (calls w)) (calls w') = calls w /\
  firstn (List.length (spans w)) (spans w') = spans w /\
  List.length (calls w') <= List.length (calls w) + 3 /\
  List.length (spans w') <= List.length (spans w) + 1.
Proof.
  destruct m as [t|t]; simpl; intros H.
  - rewrite (metrics_exit_eq t exc w H). simpl.
    rewrite firstn_app, Nat.sub_diag, firstn_all, firstn_all, app_nil_r.
    rewrite length_app. unfold metric_release_calls.
    destruct (simulated_error w); simpl; repeat split; lia.
  - rewrite (traces_exit_eq t exc w H). simpl.
    rewrite !firstn_app, !Nat.sub_diag, !firstn_all, !app_nil_r.
    rewrite !length_app. unfold trace_release_calls.
    destruct (simulated_error w); simpl; repeat split; lia.
Qed.

Lemma release_only_appends_witness :
  start_time_of (started main_span 9) = Some 9%float /\
  firstn (List.length (spans (snd (scoped main_span sleeping_work (world0 0.5)))))
    (spans (snd (release (started main_span 9) None
                   (snd (scoped main_span sleeping_work (world0 0.5))))))
  = spans (snd (scoped main_span sleeping_work (world0 0.5))).
Proof.
  split; [reflexivity|].
  exact (proj1 (proj2
    (@release_only_appends (started main_span 9) None
       (snd (scoped main_span sleeping_work (world0 0.5))) 9%float eq_refl))).
Defined.

(** X8: what a metric scope writes, whatever way its work ends.  After the
    work, [with HistrogramTimer(h, c, attributes)] adds, on a sample below
    0.05, 1 to the caller's counter [c] and then an error log record, and in
    every case last the duration record: the monotonic reading at release
    minus the one at acquisition, times 1000.  The attributes of the calls
    are the dict that was passed, or the empty dict for [None]. *)
Theorem metric_scope_calls
    (h c : Instrument) (attributes : option Attributes)
    (body : M unit) (w w2 : World) (r : Py.Outcome unit) :
  body w = (r, w2) ->
  let a := match attributes with Some d => d | None => [] end in
  new_calls w2 (snd (scoped (Metric (Metrics.__init__ h c attributes)) body w))
  = (if (sample w2 <? 0.05)%float
     then [CounterAdd c 1 a; LogRecord logging.ERROR "transaction failed"]
     else [])
    ++ [HistogramRecord Metrics.duration_histogram
          ((perf_counter_now w2 - perf_counter_now w) * 1000)%float a].
Proof.
  intros Hb a. subst a. rewrite <- or_empty_eq.
  rewrite scoped_eq, Hb.
  destruct r as [u|e]; simpl.
  - exact (proj1 (@metric_new_calls
                    (Metrics.mkHistrogramTimer h c (or_empty attributes)
                       (Some (perf_counter_now w)))
                    None w2 (perf_counter_now w) eq_refl)).
  - exact (proj1 (@metric_new_calls
                    (Metrics.mkHistrogramTimer h c (or_empty attributes)
                       (Some (perf_counter_now w)))
                    (Some e) w2 (perf_counter_now w) eq_refl)).
Qed.

Lemma metric_scope_calls_witness :
  interrupted_work (world0 0.01)
  = (Py.Raised (Py.mkExc Py.KeyboardInterrupt ""),
     snd (sleeping_work (world0 0.01))) /\
  new_calls (snd (sleeping_work (world0 0.01)))
    (snd (scoped main_timer interrupted_work (world0 0.01)))
  = [CounterAdd Metrics.error_counter 1 [("op", AStr "data-process")];
     LogRecord logging.ERROR "transaction failed";
     HistogramRecord Metrics.duration_histogram 1500
       [("op", AStr "data-process")]].
Proof.
  split; [reflexivity|].
  exact (@metric_scope_calls Metrics.duration_histogram Metrics.error_counter
           (Some [("op", AStr "data-process")]) interrupted_work (world0 0.01)
           (snd (sleeping_work (world0 0.01)))
           (Py.Raised (Py.mkExc Py.KeyboardInterrupt "")) eq_refl).
Defined.

(** X9: a fault in the work of a scope ends the loop.  When the work of the
    first of the scopes raises, that scope is released, the exception leaves
    the loop, and no later scope runs: the loop ends in the world that one
    release left. *)
Theorem loop_stops_at_raising_scope
    (n : nat) (m : ScopedMeasurement) (body : M unit) (w w2 : World) (e : Py.Exc) :
  body w = (Py.Raised e, w2) ->
  scopes (S n) m body w
  = (Py.Raised e, snd (release (started m (perf_counter_now w)) (Some e) w2)) /\
  scopes (S n) m body w = scopes 1 m body w.
Proof.
  intros Hb.
  assert (R : forall k, scopes (S k) m body w
              = (Py.Raised e,
                 snd (release (started m (perf_counter_now w)) (Some e) w2))).
  { intros k. unfold scopes, for_range. cbn [for_range_from].
    unfold bind. rewrite scoped_eq, Hb. reflexivity. }
  split; [apply R|]. now rewrite (R n), (R 0).
Qed.

Lemma loop_stops_at_raising_scope_witness :
  interrupted_work (world0 0.5)
  = (Py.Raised (Py.mkExc Py.KeyboardInterrupt ""),
     snd (sleeping_work (world0 0.5))) /\
  scopes 50 main_timer interrupted_work (world0 0.5)
  = scopes 1 main_timer interrupted_work (world0 0.5).
Proof.
  split; [reflexivity|].
  exact (proj2 (@loop_stops_at_raising_scope 49 main_timer interrupted_work
                  (world0 0.5) (snd (sleeping_work (world0 0.5)))
                  (Py.mkExc Py.KeyboardInterrupt "") eq_refl)).
Defined.
